(** * JustBot: message chains and the application's decorators

    A shallow embedding of [apis/message_chain.py] and of the
    [BotApplication] class of [jbot/__init__.py], with the properties of
    the design document stated over it.

    Python objects are modelled by what the code observes of them: the
    attributes that [MessageChain] stores on the class object form an
    explicit store that is threaded through every call, exceptions are
    values of a result type, loggers append to a chronological log. *)

From Stdlib Require Import String List ZArith Lia Bool Arith.
Import ListNotations.
Local Open Scope string_scope.
Local Open Scope list_scope.

Set Implicit Arguments.

(** ** Exceptions and results *)

(** The instances of Python's [Exception] that the modelled code can
    meet.  [AdapterError] stands for whatever the adapter's transport
    raises. *)
Inductive Exc : Type :=
| TypeError
| AttributeError
| IndexError
| KeyError
| AdapterError (what : string).

Inductive Result (A : Type) : Type :=
| Ok (a : A)
| Raise (e : Exc).

Arguments Ok {A} a.
Arguments Raise {A} e.

(** ** Elements

    [apis/element.py] is not part of the modelled files: an element is
    known through its two renderings.  [iter_items] is what a [for] loop
    over the element itself yields, [None] when the class is not
    iterable; [direct_element] is the test
    [type(e) in Element.__subclasses__() or type(e) is Element]. *)
Module Element.

Class API (E : Type) : Type := {
  to_code : E -> string;
  as_display : E -> string;
  iter_items : E -> option (list E);
  direct_element : E -> bool
}.

End Element.

(** The concatenation of a sequence of strings in order, as the design
    document words it. *)
Fixpoint concat_in_order (l : list string) : string :=
  match l with
  | [] => ""
  | s :: rest => (s ++ concat_in_order rest)%string
  end.

(** [''.join(parts)] *)
Definition join_empty (parts : list string) : string := String.concat "" parts.

Module MessageChain.
Section WithElements.

Context {E : Type} `{Element.API E}.

(** What [create] receives as [elements]: a list (or tuple) of elements,
    or, from [send_msg], one bare element. *)
Inductive PyArg : Type :=
| ArgSeq (l : list E)
| ArgElement (e : E).

(** The attributes that the methods set on the class object [cls].  An
    attribute that was never assigned is [None]: reading it raises
    [AttributeError]. *)
Record Cls : Type := mkCls {
  elements : option PyArg;
  _strings : option (list string);
  _result : option string
}.

(** The class object before any chain was built. *)
Definition fresh : Cls := mkCls None None None.

(** What a constructor hands back.  [__new__] returns [cls]: every chain
    built by this module is the class object itself.  [ChainInstance]
    is an object whose [type] is [MessageChain]; its classmethods read
    the same class attributes. *)
Inductive Chain : Type :=
| ChainClass
| ChainInstance (oid : nat).

(** [for i in strings: cls._result += i], from [cls._result = ''] *)
Definition accumulate (strings : list string) : string :=
  fold_left (fun acc i => (acc ++ i)%string) strings "".

(** [MessageChain(strings)], that is [__new__(cls, strings)] *)
Definition __new__ (strings : list string) (c : Cls) : Cls * Chain :=
  (mkCls (elements c) (Some strings) (Some (accumulate strings)), ChainClass).

(** Iterating the object bound to [elements]. *)
Definition iterate (a : PyArg) : Result (list E) :=
  match a with
  | ArgSeq l => Ok l
  | ArgElement e =>
      match Element.iter_items e with
      | Some l => Ok l
      | None => Raise TypeError
      end
  end.

(** [[e.to_code() for e in E]]: the strings rendered beforehand, from
    which the design document's direct construction starts. *)
Definition pre_rendered (l : list E) : list string := map Element.to_code l.

(** [strings = []; for i in elements: strings.append(i.to_code())] *)
Definition collect_codes (l : list E) : list string :=
  fold_left (fun strings i => strings ++ [Element.to_code i]) l [].

(** [MessageChain.create(elements)] *)
Definition create (els : PyArg) (c : Cls) : Cls * Result Chain :=
  let c1 := mkCls (Some els) (_strings c) (_result c) in
  match iterate els with
  | Raise e => (c1, Raise e)
  | Ok l =>
      let (c2, ch) := __new__ (collect_codes l) c1 in
      (c2, Ok ch)
  end.

(** [chain.to_code()] *)
Definition to_code (ch : Chain) (c : Cls) : Result string :=
  match _result c with
  | Some r => Ok r
  | None => Raise AttributeError
  end.

(** [chain.as_display()] *)
Definition as_display (ch : Chain) (c : Cls) : Result string :=
  match elements c with
  | None => Raise AttributeError
  | Some a =>
      match iterate a with
      | Raise e => Raise e
      | Ok l => Ok (join_empty (map Element.as_display l))
      end
  end.

End WithElements.
End MessageChain.

(** ** Handlers, events and listeners *)

(** A Python function object: its identity and whether
    [asyncio.iscoroutinefunction] holds of it. *)
Record PyFunc : Type := mkFunc {
  fn_id : nat;
  fn_coroutine : bool
}.

(** An event class: its identity and its [__name__]. *)
Record EventType : Type := mkEvent {
  ev_id : nat;
  ev_name : string
}.

(** The [event] argument of [on]: one class, a list or a tuple of them. *)
Inductive EventArg : Type :=
| OneEvent (e : EventType)
| EventList (l : list EventType)
| EventTuple (l : list EventType).

(** [Listener(event, target)] *)
Record Listener : Type := mkListener {
  event : EventType;
  target : PyFunc
}.

(** [Union[List[str], Tuple[str], str]] *)
Inductive Triggers : Type :=
| OneTrigger (s : string)
| ManyTriggers (l : list string).

(** The matchers built by [command] and [keyword]; [ignore] lists element
    classes by name. *)
Inductive Matcher : Type :=
| CommandMatcher (command : Triggers) (match_all_width : bool) (ignore : list string)
| KeywordMatcher (keyword : Triggers) (match_all_width : bool) (ignore : list string).

Inductive ParamType : Type := PStr | PList | PDict | PNone.

(** The [value] that an attachment decorator passes on.  [F] stands for
    Python's [float], on which this code never computes.  A role is
    known by its name. *)
Inductive Value (F : Type) : Type :=
| VMatcher (m : Matcher)
| VParamConvert (t : ParamType)
| VRole (role : list string) (todo : option PyFunc)
| VNlp (c : F) (keywords : list string) (params : list (string * string)).

Arguments VMatcher {F} m.
Arguments VParamConvert {F} t.
Arguments VRole {F} role todo.
Arguments VNlp {F} c keywords params.

(** ** The listener manager, as the application uses it *)
Module ListenerManager.

Class API (F LM : Type) : Type := {
  join : Listener -> Z -> LM -> LM;
  set_matcher : PyFunc -> Value F -> LM -> LM * bool;
  set_param_convert : PyFunc -> Value F -> LM -> LM * bool;
  set_role : PyFunc -> Value F -> LM -> LM * bool;
  set_nlp : PyFunc -> Value F -> LM -> LM * bool
}.

End ListenerManager.

(** ** Logging *)

Inductive Logger : Type := AppLogger | AdapterLogger.
Inductive Level : Type := Info | Warning | Error.

(** The messages of [jbot/__init__.py], by the line that formats them. *)
Inductive LogText : Type :=
| BadMessageType                       (* send_msg: wrong type of [message] *)
| SendFailed (e : Exc)                 (* send_msg: cannot send, [str(e)] *)
| PriorityNotInt                       (* on: wrong type of [priority] *)
| PriorityNotPositive                  (* on: priority not above 0 *)
| Registered (multi : bool) (name : string) (priority : Z) (f : PyFunc)
| NotCoroutine (f : PyFunc)            (* on: function ignored, must be async *)
| NotListener (desc : string) (f : PyFunc).  (* attachment on a non-listener *)

Record LogEntry : Type := mkLog {
  logger : Logger;
  level : Level;
  text : LogText
}.

(** ** The application *)
Module BotApplication.
Section App.

Context {E : Type} `{Element.API E}.
Context {F LM : Type} `{ListenerManager.API F LM}.

(** [apis/contact.py] is not modelled: a contact is only passed on. *)
Variable Contact : Type.

(** What the application needs of its adapter.  [plain_class] is the
    outcome of the search of [send_msg] for the adapter's [Plain] class
    among the subclasses of the element classes ([None]: the search
    finds none and indexing raises).  [send_message] is the transport;
    it sees the chain it is given and the attributes of the class. *)
Record Adapter : Type := mkAdapter {
  name : string;
  plain_class : option (string -> E);
  send_message : Contact -> MessageChain.Chain -> MessageChain.Cls (E:=E) -> Result unit
}.

Variable adapter : Adapter.

(** A call of the listener manager made by the application. *)
Inductive ManagerCall : Type :=
| CallJoin (listener : Listener) (priority : Z)
| CallSet (key : string) (f : PyFunc) (value : Value F).

(** Everything the methods read or write. *)
Record World : Type := mkWorld {
  chain_cls : MessageChain.Cls (E:=E);
  log : list LogEntry;
  listener_manager : LM;
  calls : list ManagerCall;
  outbox : list (Contact * MessageChain.Chain * MessageChain.Cls (E:=E))
}.

(** Python code: it runs in a world, changes it and returns or raises;
    what it changed before raising stays changed. *)
Definition M (A : Type) : Type := World -> World * Result A.

Definition ret {A} (a : A) : M A := fun w => (w, Ok a).

Definition bind {A B} (c : M A) (k : A -> M B) : M B :=
  fun w =>
    match c w with
    | (w1, Ok a) => k a w1
    | (w1, Raise e) => (w1, Raise e)
    end.

Definition raise {A} (e : Exc) : M A := fun w => (w, Raise e).

(** [try: c  except Exception as e: h e] *)
Definition try_except {A} (c : M A) (h : Exc -> M A) : M A :=
  fun w =>
    match c w with
    | (w1, Ok a) => (w1, Ok a)
    | (w1, Raise e) => h e w1
    end.

Notation "x <- c ;; k" := (bind c (fun x => k))
  (at level 61, c at next level, right associativity).
Notation "c ;;; k" := (bind c (fun _ => k))
  (at level 61, right associativity).

(** The world after a logger has written one more entry. *)
Definition logged (en : LogEntry) (w : World) : World :=
  mkWorld (chain_cls w) (log w ++ [en]) (listener_manager w) (calls w) (outbox w).

Definition write_log (lg : Logger) (lv : Level) (t : LogText) : M unit :=
  fun w => (logged (mkLog lg lv t) w, Ok tt).

(** Running a method of [MessageChain] on the class attributes. *)
Definition on_chain_cls {A} (f : MessageChain.Cls -> MessageChain.Cls * Result A) : M A :=
  fun w =>
    let (c, r) := f (chain_cls w) in
    (mkWorld c (log w) (listener_manager w) (calls w) (outbox w), r).

(** Running a method of the listener manager, recording the call. *)
Definition on_manager {A} (call : ManagerCall) (f : LM -> LM * A) : M A :=
  fun w =>
    let (m, a) := f (listener_manager w) in
    (mkWorld (chain_cls w) (log w) m (calls w ++ [call]) (outbox w), Ok a).

(** *** send_msg *)

(** The [message] argument, by its [type]. *)
Inductive Message : Type :=
| MsgChain (c : MessageChain.Chain)
| MsgStr (s : string)
| MsgElement (e : E)
| MsgList (l : list E)
| MsgTuple (l : list E)
| MsgOther.

Inductive PyType : Type :=
| TMessageChain | TStr | TElement (direct : bool) | TList | TTuple | TOther.

(** [type(message)].  The class object that the constructors of
    [MessageChain] return has the type [type], not [MessageChain]. *)
Definition type_of (message : Message) : PyType :=
  match message with
  | MsgChain MessageChain.ChainClass => TOther
  | MsgChain (MessageChain.ChainInstance _) => TMessageChain
  | MsgStr _ => TStr
  | MsgElement e => TElement (Element.direct_element e)
  | MsgList _ => TList
  | MsgTuple _ => TTuple
  | MsgOther => TOther
  end.

(** [send = lambda chain: self.adapter.send_message(target, chain)],
    awaited. *)
Definition send (target : Contact) (chain : MessageChain.Chain) : M unit :=
  fun w =>
    (mkWorld (chain_cls w) (log w) (listener_manager w) (calls w)
             (outbox w ++ [(target, chain, chain_cls w)]),
     send_message adapter target chain (chain_cls w)).

(** [error = lambda: self.adapter.logger.warning(...)] *)
Definition error : M unit := write_log AdapterLogger Warning BadMessageType.

(** [MessageChain.create] called on unpacked positional arguments:
    [create] takes exactly one. *)
Definition call_create (args : list MessageChain.PyArg) : M MessageChain.Chain :=
  match args with
  | [a] => on_chain_cls (MessageChain.create a)
  | _ => raise TypeError
  end.

(** The search for the adapter's [Plain] class, called on the text. *)
Definition make_plain (s : string) : M E :=
  match plain_class adapter with
  | Some mk => ret (mk s)
  | None => raise IndexError
  end.

(** The statements under [try]. *)
Definition send_msg_body (target : Contact) (message : Message) : M unit :=
  let t := type_of message in
  let is_element := match t with TElement d => d | _ => false end in
  let is_list := match t with TList | TTuple => true | _ => false end in
  match t, message with
  | TMessageChain, MsgChain c => send target c
  | TStr, MsgStr s =>
      plain <- make_plain s ;;
      chain <- call_create [MessageChain.ArgElement plain] ;;
      send target chain
  | _, _ =>
      if is_element || is_list then
        match message with
        | MsgElement e =>
            chain <- call_create [MessageChain.ArgElement e] ;;
            send target chain
        | MsgList l | MsgTuple l =>
            chain <- call_create (map MessageChain.ArgElement l) ;;
            send target chain
        | _ => error
        end
      else error
  end.

(** [await app.send_msg(target, message)] *)
Definition send_msg (target : Contact) (message : Message) : M unit :=
  try_except (send_msg_body target message)
    (fun e => write_log AdapterLogger Error (SendFailed e) ;;; raise e).

(** *** on *)

(** The [priority] argument: an [int], or something of another type. *)
Inductive PyPriority : Type :=
| PInt (p : Z)
| PNotInt.

(** What [on] and the attachment methods return. *)
Inductive PyObj : Type :=
| PyNone
| Identity                                        (* lambda target: target *)
| OnWrapper (ev : EventArg) (priority : Z)        (* wrapper of [on] *)
| SetWrapper (value : Value F) (type desc : string).  (* of [__set_decorator] *)

(** [join = lambda e: self.listener_manager.join(listener=Listener(e, target),
    priority=priority)] *)
Definition join (f : PyFunc) (priority : Z) (e : EventType) : M unit :=
  on_manager (CallJoin (mkListener e f) priority)
    (fun m => (ListenerManager.join (mkListener e f) priority m, tt)).

(** [register = lambda multi, name: self.logger.info(...)] *)
Definition register (f : PyFunc) (priority : Z) (multi : bool) (nm : string) : M unit :=
  write_log AppLogger Info (Registered multi nm priority f).

(** [for e in ev: join(e)] *)
Fixpoint join_each (f : PyFunc) (priority : Z) (evs : list EventType) : M unit :=
  match evs with
  | [] => ret tt
  | e :: rest => join f priority e ;;; join_each f priority rest
  end.

(** The world after the listeners of [f] for the events [evs] were
    joined one after the other at the priority [priority]. *)
Definition joined (f : PyFunc) (priority : Z) (evs : list EventType) (w : World)
  : World :=
  mkWorld (chain_cls w) (log w)
    (fold_left (fun m e => ListenerManager.join (mkListener e f) priority m) evs
       (listener_manager w))
    (calls w ++ map (fun e => CallJoin (mkListener e f) priority) evs)
    (outbox w).

(** [if ev.__class__ == list and len(list(ev)) == 1: ev = ev[0]] *)
Definition unwrap_single (ev : EventArg) : EventArg :=
  match ev with
  | EventList [e] => OneEvent e
  | _ => ev
  end.

(** The [wrapper] that [on] returns, applied to [target]. *)
Definition on_wrapper (ev0 : EventArg) (priority : Z) (f : PyFunc) : M PyFunc :=
  (if fn_coroutine f then
     let ev := unwrap_single ev0 in
     match ev with
     | OneEvent e =>
         register f priority true (ev_name e) ;;;
         join f priority e
     | EventList l | EventTuple l =>
         register f priority false (String.concat " & " (map ev_name l)) ;;;
         join_each f priority l
     end
   else write_log AppLogger Warning (NotCoroutine f)) ;;;
  ret f.

(** [app.on(event, priority)] *)
Definition on (ev : EventArg) (priority : PyPriority) : M PyObj :=
  match priority with
  | PNotInt => write_log AppLogger Error PriorityNotInt ;;; ret Identity
  | PInt p =>
      if (p >? 0)%Z then ret (OnWrapper ev p)
      else write_log AppLogger Error PriorityNotPositive ;;; ret PyNone
  end.

(** [priority: int = 5] *)
Definition default_priority : PyPriority := PInt 5.

(** *** The attachment decorators *)

Fixpoint lookup {A} (key : string) (mapping : list (string * A)) : option A :=
  match mapping with
  | [] => None
  | (k, v) :: rest => if String.eqb k key then Some v else lookup key rest
  end.

(** The [wrapper] that [__set_decorator] returns, applied to [target]. *)
Definition set_wrapper (value : Value F) (type desc : string) (f : PyFunc) : M PyFunc :=
  let mapping :=
    [ ("matcher", on_manager (CallSet "matcher" f value)
                    (ListenerManager.set_matcher f value));
      ("param_convert", on_manager (CallSet "param_convert" f value)
                    (ListenerManager.set_param_convert f value));
      ("role", on_manager (CallSet "role" f value)
                    (ListenerManager.set_role f value));
      ("nlp", on_manager (CallSet "nlp" f value)
                    (ListenerManager.set_nlp f value)) ] in
  flag <- match lookup type mapping with
          | Some thunk => thunk
          | None => raise KeyError
          end ;;
  (if negb flag then write_log AppLogger Warning (NotListener desc f)
   else ret tt) ;;;
  ret f.

Definition __set_decorator (value : Value F) (type desc : string) : M PyObj :=
  ret (SetWrapper value type desc).

Definition command (cmd : Triggers) (match_all_width : bool) (ignore : list string)
  : M PyObj :=
  let command_matcher := CommandMatcher cmd match_all_width ignore in
  __set_decorator (VMatcher command_matcher) "matcher" "消息匹配器".

Definition keyword (kw : Triggers) (match_all_width : bool) (ignore : list string)
  : M PyObj :=
  let keyword_matcher := KeywordMatcher kw match_all_width ignore in
  __set_decorator (VMatcher keyword_matcher) "matcher" "消息匹配器".

Definition matcher (m : Matcher) : M PyObj :=
  __set_decorator (VMatcher m) "matcher" "消息匹配器".

Definition param_convert (t : ParamType) : M PyObj :=
  __set_decorator (VParamConvert t) "param_convert" "参数转换类型".

Definition role (r : list string) (todo : option PyFunc) : M PyObj :=
  __set_decorator (VRole r todo) "role" "权限组".

Definition nlp (c : F) (keywords : list string) (params : list (string * string))
  : M PyObj :=
  __set_decorator (VNlp c keywords params) "nlp" "自然语言处理".

(** A call of one of the six attachment methods, with its arguments. *)
Inductive Attach : Type :=
| ACommand (cmd : Triggers) (match_all_width : bool) (ignore : list string)
| AKeyword (kw : Triggers) (match_all_width : bool) (ignore : list string)
| AMatcher (m : Matcher)
| AParamConvert (t : ParamType)
| ARole (r : list string) (todo : option PyFunc)
| ANlp (c : F) (keywords : list string) (params : list (string * string)).

Definition attach (a : Attach) : M PyObj :=
  match a with
  | ACommand cmd w i => command cmd w i
  | AKeyword kw w i => keyword kw w i
  | AMatcher m => matcher m
  | AParamConvert t => param_convert t
  | ARole r todo => role r todo
  | ANlp c k ps => nlp c k ps
  end.

(** Calling what a decorator method returned on a function:
    [@app.on(...)] above a [def]. *)
Definition call (d : PyObj) (f : PyFunc) : M PyFunc :=
  match d with
  | PyNone => raise TypeError
  | Identity => ret f
  | OnWrapper ev p => on_wrapper ev p f
  | SetWrapper value type desc => set_wrapper value type desc f
  end.

(** [@d def f ...] where [d] is the method call [c]. *)
Definition decorate (c : M PyObj) (f : PyFunc) : M PyFunc :=
  d <- c ;; call d f.

(** Two worlds that differ in the class attributes of [MessageChain]
    at most. *)
Definition same_but_chain (w1 w : World) : Prop :=
  log w1 = log w /\ outbox w1 = outbox w
  /\ listener_manager w1 = listener_manager w /\ calls w1 = calls w.

(** The world after one setter of the manager was called through the
    wrapper of [__set_decorator]: the manager is what the setter left,
    the call is recorded, and a warning is written when the setter
    reported failure. *)
Definition after_setter (key desc : string) (f : PyFunc) (value : Value F)
           (outcome : LM * bool) (w : World) : World :=
  mkWorld (chain_cls w)
    (if snd outcome then log w
     else log w ++ [mkLog AppLogger Warning (NotListener desc f)])
    (fst outcome) (calls w ++ [CallSet key f value]) (outbox w).

(** The event types that the [wrapper] of [on] goes through: the one
    event, or the members of the list or tuple. *)
Definition events_of (ev : EventArg) : list EventType :=
  match ev with
  | OneEvent e => [e]
  | EventList l | EventTuple l => l
  end.

(** *** set_config *)
Section SetConfig.

(** The Python objects held in attributes. *)
Variable V : Type.

(** The attributes of an object, [__dict__]: names with their values, in
    insertion order.  The class [Config] is not among the modelled
    files; its instance [CONFIG] is taken to store attributes as a plain
    object does. *)
Definition Attrs : Type := list (string * V).

(** [obj.__setattr__(k, v)]: a name that is present keeps its place. *)
Fixpoint setattr (k : string) (v : V) (a : Attrs) : Attrs :=
  match a with
  | [] => [(k, v)]
  | (k', v') :: rest =>
      if String.eqb k' k then (k', v) :: rest
      else (k', v') :: setattr k v rest
  end.

(** [for k in keys: CONFIG.__setattr__(k, self.__dict__[k])]; [None] is
    the [KeyError] of a name that [self.__dict__] does not hold. *)
Fixpoint copy_attrs (keys : list string) (self_dict config : Attrs) : option Attrs :=
  match keys with
  | [] => Some config
  | k :: rest =>
      match lookup k self_dict with
      | Some v => copy_attrs rest self_dict (setattr k v config)
      | None => None
      end
  end.

(** [app.set_config()], on the attributes of [self] and of [CONFIG];
    [self] is the application object itself. *)
Definition set_config (self_dict : Attrs) (self : V) (config : Attrs) : option Attrs :=
  match copy_attrs (map fst self_dict) self_dict config with
  | Some config' => Some (setattr "application" self config')
  | None => None
  end.

End SetConfig.

End App.
End BotApplication.

(** ** Sequences of constructions *)
Module Constructions.
Section WithElements.

Context {E : Type} `{Element.API E}.

(** One construction of a chain: the class called on strings, or
    [create] called on some argument. *)
Inductive Op : Type :=
| New (strings : list string)
| Create (els : MessageChain.PyArg (E:=E)).

(** The class attributes after the construction, whether it returned or
    raised. *)
Definition step (c : MessageChain.Cls) (op : Op) : MessageChain.Cls :=
  match op with
  | New strings => fst (MessageChain.__new__ strings c)
  | Create els => fst (MessageChain.create els c)
  end.

(** The class attributes after the constructions [ops], made in order
    since the module was imported. *)
Definition run (ops : list Op) : MessageChain.Cls :=
  fold_left step ops MessageChain.fresh.


End WithElements.
End Constructions.

(** ** A listener registry *)
Module Registry.
Section WithFloat.

Variable F : Type.

(** Modelled from the spec: the state of the class [ListenerManager] of
    [utils], whose code is not among the modelled files.  The design
    document gives it a mapping from event type to the sequence of that
    type's listeners in ascending priority, equal priorities in
    insertion order, and lets each listener carry its optional
    attachments: matcher, parameter conversion type, role requirement
    and NLP binding. *)
Record Entry : Type := mkEntry {
  listener : Listener;
  priority : Z;
  matcher : option (Value F);
  param_convert : option (Value F);
  role : option (Value F);
  nlp : option (Value F)
}.

Definition t : Type := list (EventType * list Entry).

Definition empty : t := [].

Definition same_event (a b : EventType) : bool := Nat.eqb (ev_id a) (ev_id b).
Definition same_func (a b : PyFunc) : bool := Nat.eqb (fn_id a) (fn_id b).

(** After every entry of a priority that is not greater. *)
Fixpoint insert (en : Entry) (l : list Entry) : list Entry :=
  match l with
  | [] => [en]
  | x :: rest =>
      if (priority x <=? priority en)%Z then x :: insert en rest
      else en :: x :: rest
  end.

Fixpoint insert_at (ev : EventType) (en : Entry) (r : t) : t :=
  match r with
  | [] => [(ev, [en])]
  | (k, l) :: rest =>
      if same_event k ev then (k, insert en l) :: rest
      else (k, l) :: insert_at ev en rest
  end.

(** Modelled from the spec: [ListenerManager.join], which inserts the
    listener into the sequence of its event type and rejects a priority
    that is not positive. *)
Definition join (l : Listener) (p : Z) (r : t) : t :=
  if (p <=? 0)%Z then r
  else insert_at (event l) (mkEntry l p None None None None) r.

Definition handled_by (f : PyFunc) (en : Entry) : bool :=
  same_func (target (listener en)) f.

(** Is [f] the handler of some listener? *)
Definition is_listener (f : PyFunc) (r : t) : bool :=
  existsb (fun kl => existsb (handled_by f) (snd kl)) r.

(** Modelled from the spec: the setters of [ListenerManager], which look
    up the listeners whose handler identity matches, return failure when
    there is none and otherwise change the attachment in place. *)
Definition set_attachment (upd : Entry -> Entry) (f : PyFunc) (r : t) : t * bool :=
  if is_listener f r then
    (map (fun kl => (fst kl, map (fun en => if handled_by f en then upd en else en)
                                 (snd kl))) r, true)
  else (r, false).

Definition set_matcher (f : PyFunc) (v : Value F) : t -> t * bool :=
  set_attachment (fun en => mkEntry (listener en) (priority en) (Some v)
                                    (param_convert en) (role en) (nlp en)) f.

Definition set_param_convert (f : PyFunc) (v : Value F) : t -> t * bool :=
  set_attachment (fun en => mkEntry (listener en) (priority en) (matcher en)
                                    (Some v) (role en) (nlp en)) f.

Definition set_role (f : PyFunc) (v : Value F) : t -> t * bool :=
  set_attachment (fun en => mkEntry (listener en) (priority en) (matcher en)
                                    (param_convert en) (Some v) (nlp en)) f.

Definition set_nlp (f : PyFunc) (v : Value F) : t -> t * bool :=
  set_attachment (fun en => mkEntry (listener en) (priority en) (matcher en)
                                    (param_convert en) (role en) (Some v)) f.

(** No listener carries an attachment. *)
Definition no_attachment (r : t) : bool :=
  forallb (fun kl =>
    forallb (fun en =>
      match matcher en, param_convert en, role en, nlp en with
      | None, None, None, None => true
      | _, _, _, _ => false
      end) (snd kl)) r.

End WithFloat.

#[global] Instance manager (F : Type) : ListenerManager.API F (t F) := {
  ListenerManager.join := @join F;
  ListenerManager.set_matcher := @set_matcher F;
  ListenerManager.set_param_convert := @set_param_convert F;
  ListenerManager.set_role := @set_role F;
  ListenerManager.set_nlp := @set_nlp F
}.

End Registry.

(** ** Concrete elements, handlers and adapters for the examples *)
Module Sample.

(** A text element that renders to its text, and is not iterable. *)
Inductive Plain : Type := mkPlain (txt : string).

#[global] Instance plain_api : Element.API Plain := {
  Element.to_code := fun p => match p with mkPlain s => s end;
  Element.as_display := fun p => match p with mkPlain s => s end;
  Element.iter_items := fun _ => None;
  Element.direct_element := fun _ => false
}.

Definition Cls : Type := MessageChain.Cls (E:=Plain).

Definition World : Type :=
  BotApplication.World (E:=Plain) (F:=nat) (LM:=Registry.t nat) nat.

Definition start : World :=
  BotApplication.mkWorld MessageChain.fresh [] (Registry.empty nat) [] [].

(** An adapter whose transport is down. *)
Definition down : BotApplication.Adapter (E:=Plain) nat :=
  BotApplication.mkAdapter "Mirai" (Some mkPlain)
    (fun _ _ _ => Raise (AdapterError "connection refused")).

(** An adapter whose transport works. *)
Definition up : BotApplication.Adapter (E:=Plain) nat :=
  BotApplication.mkAdapter "Mirai" (Some mkPlain) (fun _ _ _ => Ok tt).

(** An adapter for which the search for a [Plain] class finds nothing. *)
Definition without_plain : BotApplication.Adapter (E:=Plain) nat :=
  BotApplication.mkAdapter "Console" None (fun _ _ _ => Ok tt).

Definition handler : PyFunc := mkFunc 1 true.
Definition plain_function : PyFunc := mkFunc 2 false.
Definition GroupMessage : EventType := mkEvent 1 "GroupMessageEvent".
Definition FriendMessage : EventType := mkEvent 2 "FriendMessageEvent".

(** An async function that no [on] ever saw. *)
Definition stranger : PyFunc := mkFunc 3 true.

(** The world after [@app.on(GroupMessageEvent)] above [handler]. *)
Definition listening : World :=
  fst (BotApplication.decorate
         (BotApplication.on (OneEvent GroupMessage) BotApplication.default_priority)
         handler start).

End Sample.

(** * Properties *)

(** ** Strings *)

Lemma fold_append_from (l : list string) (acc : string) :
  fold_left (fun a i => (a ++ i)%string) l acc
  = (acc ++ concat_in_order l)%string.
Proof.
  revert acc; induction l as [|s rest IH]; intros acc; simpl.
  - symmetry. induction acc as [|ch acc' IHacc]; simpl; [reflexivity|].
    now f_equal.
  - rewrite IH. clear IH.
    induction acc as [|ch acc' IHacc]; simpl; [reflexivity|].
    now f_equal.
Qed.

Lemma join_empty_in_order (l : list string) :
  join_empty l = concat_in_order l.
Proof.
  unfold join_empty.
  induction l as [|s rest IH]; simpl; [reflexivity|].
  destruct rest as [|s' rest'].
  - simpl. induction s as [|ch s0 IHs]; simpl; [reflexivity|]. now f_equal.
  - rewrite IH. reflexivity.
Qed.

(** ** Message chains *)
Section MessageChainFacts.

Context {E : Type} `{Element.API E}.

Implicit Types (c : MessageChain.Cls (E:=E)) (ch : MessageChain.Chain).

Lemma accumulate_in_order (strings : list string) :
  MessageChain.accumulate strings = concat_in_order strings.
Proof.
  unfold MessageChain.accumulate. now rewrite fold_append_from.
Qed.

Lemma collect_codes_from (l : list E) (acc : list string) :
  fold_left (fun strings i => strings ++ [Element.to_code i]) l acc
  = acc ++ MessageChain.pre_rendered l.
Proof.
  revert acc; induction l as [|e rest IH]; intros acc; simpl.
  - now rewrite app_nil_r.
  - rewrite IH, <- app_assoc. reflexivity.
Qed.

Lemma collect_codes_map (l : list E) :
  MessageChain.collect_codes l = MessageChain.pre_rendered l.
Proof. unfold MessageChain.collect_codes. now rewrite collect_codes_from. Qed.

(** [create] on a sequence: the elements are stored, then the class is
    called on the rendered strings. *)
Lemma create_seq (l : list E) c :
  MessageChain.create (MessageChain.ArgSeq l) c
  = (MessageChain.mkCls (Some (MessageChain.ArgSeq l)) (Some (MessageChain.pre_rendered l))
       (Some (concat_in_order (MessageChain.pre_rendered l))),
     Ok MessageChain.ChainClass).
Proof.
  unfold MessageChain.create, MessageChain.__new__; simpl.
  now rewrite collect_codes_map, accumulate_in_order.
Qed.

(** Building from strings leaves the stored elements as they were, so
    the display of the chain is the display the class had before. *)
Lemma as_display_after_new (strings : list string) c ch :
  MessageChain.as_display ch (fst (MessageChain.__new__ strings c))
  = MessageChain.as_display ch c.
Proof. reflexivity. Qed.

(** On a class that never saw [create], [as_display] fails. *)
Lemma as_display_unset (strings : list string) ch :
  MessageChain.as_display ch (fst (MessageChain.__new__ (E:=E) strings MessageChain.fresh))
  = Raise AttributeError.
Proof. reflexivity. Qed.

(** Every chain reads the attributes that the last construction wrote. *)
Lemma to_code_after_new (strings : list string) c ch :
  MessageChain.to_code ch (fst (MessageChain.__new__ strings c))
  = Ok (concat_in_order strings).
Proof.
  unfold MessageChain.to_code; simpl. now rewrite accumulate_in_order.
Qed.

(** C3: a chain built from the strings [S] has, as its [to_code()], the
    concatenation of [S] in order; that string is the one stored at
    construction, which [to_code] returns as it is; the empty sequence
    gives the empty string. *)
Theorem to_code_of_strings (S : list string) c :
  let (c', chain) := MessageChain.__new__ S c in
  MessageChain.to_code chain c' = Ok (concat_in_order S)
  /\ MessageChain._result c' = Some (concat_in_order S)
  /\ MessageChain._strings c' = Some S
  /\ (forall els strs r other,
        MessageChain.to_code other (MessageChain.mkCls (E:=E) els strs (Some r)) = Ok r)
  /\ MessageChain.to_code chain (fst (MessageChain.__new__ [] c)) = Ok "".
Proof.
  simpl. unfold MessageChain.to_code; simpl.
  rewrite accumulate_in_order. repeat split; reflexivity.
Qed.

(** C2: [create(E)] is the construction from the strings
    [[e.to_code() for e in E]], made after the elements were stored: it
    returns the same object, with the same strings and the same result
    as the direct construction, and its [to_code()] is the concatenation
    of the renderings in order. *)
Theorem create_is_new_of_rendered (l : list E) c :
  let direct := MessageChain.__new__ (MessageChain.pre_rendered l) c in
  let built := MessageChain.create (MessageChain.ArgSeq l) c in
  built = (fst (MessageChain.__new__ (MessageChain.pre_rendered l)
                  (MessageChain.mkCls (Some (MessageChain.ArgSeq l))
                     (MessageChain._strings c) (MessageChain._result c))),
           Ok MessageChain.ChainClass)
  /\ snd built = Ok (snd direct)
  /\ MessageChain._strings (fst built) = MessageChain._strings (fst direct)
  /\ MessageChain._result (fst built) = MessageChain._result (fst direct)
  /\ MessageChain.to_code MessageChain.ChainClass (fst built)
     = MessageChain.to_code MessageChain.ChainClass (fst direct)
  /\ MessageChain.to_code MessageChain.ChainClass (fst built)
     = Ok (concat_in_order (map Element.to_code l)).
Proof.
  cbv zeta. rewrite create_seq.
  unfold MessageChain.__new__, MessageChain.to_code; simpl.
  rewrite accumulate_in_order. repeat split; reflexivity.
Qed.

(** C7: [as_display()] on [create(E)] is the concatenation, in order, of
    the display renderings of the elements of [E]. *)
Theorem as_display_of_create (l : list E) c :
  MessageChain.as_display MessageChain.ChainClass
    (fst (MessageChain.create (MessageChain.ArgSeq l) c))
  = Ok (concat_in_order (map Element.as_display l)).
Proof.
  rewrite create_seq. unfold MessageChain.as_display; simpl.
  now rewrite join_empty_in_order.
Qed.

End MessageChainFacts.

(** ** Registration with [on] *)
Section OnFacts.

Import BotApplication.

Context {E : Type} `{Element.API E}.
Context {F LM : Type} `{ListenerManager.API F LM}.
Variable Contact : Type.

Local Abbreviation World := (BotApplication.World (E:=E) (F:=F) (LM:=LM) Contact).

Implicit Types (w : World) (f : PyFunc) (p : Z) (evs : list EventType).

Lemma join_each_joined f p evs w :
  join_each f p evs w = (joined f p evs w, Ok tt).
Proof.
  revert w; induction evs as [|e rest IH]; intros w.
  - unfold joined; simpl. rewrite app_nil_r. now destruct w.
  - simpl. unfold bind, join, on_manager. simpl. rewrite IH.
    unfold joined; simpl. now rewrite <- app_assoc.
Qed.

(** A priority that is not positive: [on] logs an error and returns
    nothing, so that using its result as a decorator raises. *)
Lemma on_not_positive (ev : EventArg) p f w :
  (p <= 0)%Z ->
  decorate (on ev (PInt p)) f w
  = (logged (mkLog AppLogger Error PriorityNotPositive) w, Raise TypeError).
Proof.
  intros Hp. unfold decorate, on, bind.
  destruct (Z.gtb_spec p 0) as [Hgt|_]; [lia|]. reflexivity.
Qed.

(** A priority that is not an [int]: [on] logs an error and returns the
    identity, so that the function is left as it is. *)
Lemma on_not_int (ev : EventArg) f w :
  decorate (on ev PNotInt) f w
  = (logged (mkLog AppLogger Error PriorityNotInt) w, Ok f).
Proof. reflexivity. Qed.

(** A function that is not a coroutine function: a warning, no listener,
    and the function back. *)
Lemma on_not_coroutine (ev : EventArg) p f w :
  (0 < p)%Z ->
  fn_coroutine f = false ->
  decorate (on ev (PInt p)) f w
  = (logged (mkLog AppLogger Warning (NotCoroutine f)) w, Ok f).
Proof.
  intros Hp Hf. unfold decorate, on, bind.
  destruct (Z.gtb_spec p 0) as [_|Hle]; [|lia].
  simpl. unfold on_wrapper, bind. rewrite Hf. reflexivity.
Qed.

(** C9: decorating an async handler with [on(events, p)], [p > 0] and
    [events] a list or a tuple of [n >= 2] event types, calls [join]
    once for each event type, in order: [n] calls, each at the priority
    [p] and each with a listener of the same handler; the handler is
    returned. *)
Theorem on_joins_once_per_event (as_tuple : bool) evs p f w :
  2 <= length evs ->
  (0 < p)%Z ->
  fn_coroutine f = true ->
  let ev := if as_tuple then EventTuple evs else EventList evs in
  let w' := fst (decorate (on ev (PInt p)) f w) in
  snd (decorate (on ev (PInt p)) f w) = Ok f
  /\ calls w' = calls w ++ map (fun e => CallJoin (mkListener e f) p) evs
  /\ length (calls w') = length (calls w) + length evs
  /\ listener_manager w'
     = fold_left (fun m e => ListenerManager.join (mkListener e f) p m) evs
         (listener_manager w).
Proof.
  intros Hn Hp Hf. cbv zeta.
  assert (Hrun : decorate (on (if as_tuple then EventTuple evs else EventList evs)
                             (PInt p)) f w
                 = (joined f p evs
                      (logged (mkLog AppLogger Info
                                 (Registered false
                                    (String.concat " & " (map ev_name evs)) p f)) w),
                    Ok f)).
  { unfold decorate, on, bind.
    destruct (Z.gtb_spec p 0) as [_|Hle]; [|lia].
    simpl. unfold on_wrapper, bind. rewrite Hf.
    assert (Hun : unwrap_single (if as_tuple then EventTuple evs else EventList evs)
                  = (if as_tuple then EventTuple evs else EventList evs)).
    { destruct as_tuple; [reflexivity|].
      destruct evs as [|e1 [|e2 rest]]; simpl in Hn; try lia; reflexivity. }
    rewrite Hun.
    destruct as_tuple; unfold register, write_log; simpl;
      rewrite join_each_joined; reflexivity. }
  rewrite Hrun; simpl.
  repeat split; try reflexivity.
  rewrite length_app, length_map. reflexivity.
Qed.

End OnFacts.

(** ** Sending *)
Section SendFacts.

Import BotApplication.

Context {E : Type} `{Element.API E}.
Context {F LM : Type} `{ListenerManager.API F LM}.
Variable Contact : Type.
Variable adapter : Adapter (E:=E) Contact.

Local Abbreviation World := (BotApplication.World (E:=E) (F:=F) (LM:=LM) Contact).

Implicit Types (w : World) (target : Contact) (message : Message (E:=E)).

Lemma no_growth {A} (l : list A) (x : A) : l <> l ++ [x].
Proof.
  intros Heq. apply (f_equal (@length A)) in Heq.
  rewrite length_app in Heq. simpl in Heq. lia.
Qed.

(** [create] touches the class attributes only. *)
Lemma call_create_frame (args : list MessageChain.PyArg) w :
  let w1 := fst (call_create args w) in
  log w1 = log w /\ outbox w1 = outbox w.
Proof.
  destruct args as [|a [|b rest]]; simpl; try (split; reflexivity).
  unfold on_chain_cls.
  destruct (MessageChain.create a (chain_cls w)); simpl. split; reflexivity.
Qed.

(** The statements under [try] either never reach the transport, and
    then leave the outbox as it was, or end with one call of it, before
    which nothing was logged. *)
Lemma send_msg_body_cases target message w :
  outbox (fst (send_msg_body adapter target message w)) = outbox w
  \/ exists w1 chain,
       log w1 = log w /\ outbox w1 = outbox w
       /\ send_msg_body adapter target message w = send adapter target chain w1.
Proof.
  assert (Hcreate : forall args,
    outbox (fst (bind (call_create args) (fun chain => send adapter target chain) w))
      = outbox w
    \/ exists w1 chain,
         log w1 = log w /\ outbox w1 = outbox w
         /\ bind (call_create args) (fun chain => send adapter target chain) w
            = send adapter target chain w1).
  { intros args. pose proof (call_create_frame args w) as Hfr.
    unfold bind. destruct (call_create args w) as [w1 [chain|e]]; simpl in *.
    - right. exists w1, chain. tauto.
    - left. tauto. }
  destruct message as [[|oid]|s|e|l|l|]; unfold send_msg_body; simpl.
  - left; reflexivity.
  - right. exists w, (MessageChain.ChainInstance oid). auto.
  - unfold make_plain. destruct (plain_class adapter) as [mk|].
    + apply (Hcreate [MessageChain.ArgElement (mk s)]).
    + left; reflexivity.
  - destruct (Element.direct_element e); simpl.
    + apply (Hcreate [MessageChain.ArgElement e]).
    + left; reflexivity.
  - apply Hcreate.
  - apply Hcreate.
  - left; reflexivity.
Qed.

(** C8: when [send_msg] reaches the adapter's [send_message] and that
    call raises, [send_msg] writes one error entry for that exception to
    the adapter's logger and raises the same exception. *)
Theorem send_msg_reraises target message w sent_to chain cls e :
  outbox (fst (send_msg adapter target message w))
    = outbox w ++ [(sent_to, chain, cls)] ->
  send_message adapter sent_to chain cls = Raise e ->
  snd (send_msg adapter target message w) = Raise e
  /\ log (fst (send_msg adapter target message w))
     = log w ++ [mkLog AdapterLogger Error (SendFailed e)].
Proof.
  intros Hout Hraise. unfold send_msg, try_except in *.
  destruct (send_msg_body_cases target message w)
    as [Hsame | (w1 & chain1 & Hlog & Hbox & Hbody)].
  - exfalso.
    destruct (send_msg_body adapter target message w) as [w2 [[]|e2]];
      simpl in *; rewrite Hsame in Hout; exact (@no_growth _ _ _ Hout).
  - rewrite Hbody in *. unfold send in *.
    destruct (send_message adapter target chain1 (chain_cls w1)) as [[]|e1] eqn:Hsend;
      simpl in *; rewrite Hbox in Hout; apply app_inj_tail in Hout;
      destruct Hout as [_ Hlast]; inversion Hlast; subst;
      rewrite Hsend in Hraise; inversion Hraise; subst.
    rewrite Hlog. split; reflexivity.
Qed.

Lemma send_msg_sequence_run (as_tuple : bool) (l : list E) target w :
  length l <> 1 ->
  send_msg adapter target (if as_tuple then MsgTuple l else MsgList l) w
  = (logged (mkLog AdapterLogger Error (SendFailed TypeError)) w, Raise TypeError).
Proof.
  intros Hlen.
  destruct l as [|a [|b rest]]; simpl in Hlen; try lia;
    destruct as_tuple; reflexivity.
Qed.

(** A sequence that reaches the adapter has exactly one element. *)
Lemma sent_sequence_is_singleton (as_tuple : bool) (l : list E) target w :
  outbox (fst (send_msg adapter target
                 (if as_tuple then MsgTuple l else MsgList l) w)) <> outbox w ->
  length l = 1.
Proof.
  intros Hsent. destruct (Nat.eq_dec (length l) 1) as [Heq|Hne]; [exact Heq|].
  exfalso. apply Hsent.
  now rewrite (send_msg_sequence_run as_tuple l target w Hne).
Qed.

(** C10: a list or a tuple of elements whose length is not 1 is unpacked
    into a number of arguments that [create] does not take: [send_msg]
    logs the [TypeError] and raises it; nothing reaches the adapter and
    the class attributes are untouched. *)
Theorem send_msg_sequence_arity (as_tuple : bool) (l : list E) target w :
  length l <> 1 ->
  let message := if as_tuple then MsgTuple l else MsgList l in
  send_msg adapter target message w
    = (logged (mkLog AdapterLogger Error (SendFailed TypeError)) w, Raise TypeError)
  /\ outbox (fst (send_msg adapter target message w)) = outbox w
  /\ chain_cls (fst (send_msg adapter target message w)) = chain_cls w.
Proof.
  intros Hlen. cbv zeta.
  rewrite (send_msg_sequence_run as_tuple l target w Hlen).
  repeat split; reflexivity.
Qed.

End SendFacts.

(** ** Attachments on the registry *)
Section AttachFacts.

Import BotApplication.

Context {E : Type} `{Element.API E}.
Variable F : Type.
Variable Contact : Type.

Local Abbreviation World :=
  (BotApplication.World (E:=E) (F:=F) (LM:=Registry.t F) Contact).

Implicit Types (w : World) (f : PyFunc) (r : Registry.t F).

Lemma set_attachment_unregistered (upd : Registry.Entry F -> Registry.Entry F) f r :
  Registry.is_listener f r = false ->
  Registry.set_attachment upd f r = (r, false).
Proof. intros Hf. unfold Registry.set_attachment. now rewrite Hf. Qed.

Lemma insert_handled f (en : Registry.Entry F) (l : list (Registry.Entry F)) :
  existsb (Registry.handled_by f) (Registry.insert en l)
  = Registry.handled_by f en || existsb (Registry.handled_by f) l.
Proof.
  induction l as [|x rest IH]; simpl.
  - reflexivity.
  - destruct (Registry.priority x <=? Registry.priority en)%Z; simpl.
    + rewrite IH.
      destruct (Registry.handled_by f x), (Registry.handled_by f en); reflexivity.
    + reflexivity.
Qed.

(** Joining a listener of another function does not make [f] one. *)
Lemma join_other_function f (l : Listener) (p : Z) r :
  Registry.same_func (target l) f = false ->
  Registry.is_listener f r = false ->
  Registry.is_listener f (Registry.join l p r) = false.
Proof.
  intros Hother Hf. unfold Registry.join.
  destruct (p <=? 0)%Z; [exact Hf|].
  set (en := Registry.mkEntry l p None None None None).
  assert (Hen : Registry.handled_by f en = false) by exact Hother.
  unfold Registry.is_listener in *.
  induction r as [|[k es] rest IH]; simpl in *.
  - now rewrite Hen.
  - apply orb_false_iff in Hf. destruct Hf as [Hes Hrest].
    destruct (Registry.same_event k (event l)); simpl.
    + rewrite insert_handled, Hen, Hes, Hrest. reflexivity.
    + rewrite Hes. simpl. now apply IH.
Qed.

Lemma join_fold_other_function f (g : PyFunc) (p : Z) (evs : list EventType) r :
  Registry.same_func g f = false ->
  Registry.is_listener f r = false ->
  Registry.is_listener f
    (fold_left (fun m e => Registry.join (mkListener e g) p m) evs r) = false.
Proof.
  intros Hother. revert r.
  induction evs as [|e rest IH]; intros r Hf; simpl; [exact Hf|].
  apply IH. now apply join_other_function.
Qed.

(** Registering another function with [on] does not make [f] a
    listener: in a world that starts from the empty registry, a function
    that was never given to [on] is the handler of no listener. *)
Lemma on_other_function (ev : EventArg) (pr : PyPriority) (g : PyFunc) f w :
  Registry.same_func g f = false ->
  Registry.is_listener f (listener_manager w) = false ->
  Registry.is_listener f (listener_manager (fst (decorate (on ev pr) g w))) = false.
Proof.
  intros Hother Hf. unfold decorate, on, bind.
  destruct pr as [p|]; [|exact Hf].
  destruct (p >? 0)%Z; [|exact Hf].
  simpl. unfold on_wrapper, bind.
  destruct (fn_coroutine g); [|exact Hf].
  destruct (unwrap_single ev) as [e|l|l]; simpl.
  - now apply join_other_function.
  - rewrite join_each_joined. simpl. now apply join_fold_other_function.
  - rewrite join_each_joined. simpl. now apply join_fold_other_function.
Qed.

(** C6: when [f] is the handler of no listener of the registry, each of
    the six attachment decorators, applied to [f], logs one warning,
    leaves the registry as it was and returns [f]. *)
Theorem attach_to_unregistered (a : Attach (F:=F)) f w :
  Registry.is_listener f (listener_manager w) = false ->
  let run := decorate (attach a) f w in
  snd run = Ok f
  /\ listener_manager (fst run) = listener_manager w
  /\ (exists desc,
        log (fst run) = log w ++ [mkLog AppLogger Warning (NotListener desc f)])
  /\ chain_cls (fst run) = chain_cls w
  /\ outbox (fst run) = outbox w.
Proof.
  intros Hf. cbv zeta.
  destruct a; unfold decorate, attach, command, keyword, matcher, param_convert,
    role, nlp, __set_decorator, bind, ret; simpl;
    unfold set_wrapper, bind, on_manager; simpl;
    unfold Registry.set_matcher, Registry.set_param_convert, Registry.set_role,
      Registry.set_nlp;
    rewrite set_attachment_unregistered by exact Hf; simpl;
    repeat split; try reflexivity; eexists; reflexivity.
Qed.

End AttachFacts.

(** ** Concrete runs *)
Section Runs.

Import BotApplication Sample.

Local Abbreviation new := (MessageChain.__new__ (E:=Plain)).
Local Abbreviation create := (MessageChain.create (E:=Plain)).

(** C1: the first chain does not keep its content.  After
    [first = MessageChain(["a"])] and then [MessageChain(["b"])], the
    call [first.to_code()] gives ["b"], where it gave ["a"] before; after
    two calls of [create], [as_display()] of the first chain shows the
    elements of the second.  Both constructions return the one class
    object. *)
Theorem later_chain_overwrites_first :
  let (c1, first) := new ["a"] MessageChain.fresh in
  let (c2, second) := new ["b"] c1 in
  let (d1, shown) := create (MessageChain.ArgSeq [mkPlain "hi"]) MessageChain.fresh in
  let (d2, _) := create (MessageChain.ArgSeq [mkPlain "yo"]) d1 in
  MessageChain.to_code first c1 = Ok "a"
  /\ MessageChain.to_code first c2 = Ok "b"
  /\ first = second
  /\ MessageChain.as_display MessageChain.ChainClass d1 = Ok "hi"
  /\ MessageChain.as_display MessageChain.ChainClass d2 = Ok "yo".
Proof. vm_compute. repeat split; reflexivity. Qed.

(** C4: a chain built from strings shows the elements of an earlier
    chain.  After [MessageChain.create([Plain("hi")])], the chain
    [MessageChain(["x"])] answers [as_display()] with ["hi"], and not
    with a failure. *)
Theorem strings_chain_displays_stale_elements :
  let (c1, _) := create (MessageChain.ArgSeq [mkPlain "hi"]) MessageChain.fresh in
  let (c2, chain) := new ["x"] c1 in
  MessageChain.to_code chain c2 = Ok "x"
  /\ MessageChain.as_display chain c2 = Ok "hi".
Proof. vm_compute. split; reflexivity. Qed.

(** C5: with the priority 0, [on] logs an error and returns [None];
    applied to the handler, that raises [TypeError] and the handler is
    not returned.  No listener was added. *)
Theorem on_priority_zero_raises :
  decorate (on (OneEvent GroupMessage) (PInt 0)) handler start
  = (logged (mkLog AppLogger Error PriorityNotPositive) start, Raise TypeError)
  /\ on (OneEvent GroupMessage) (PInt 0) start
     = (logged (mkLog AppLogger Error PriorityNotPositive) start, Ok PyNone)
  /\ decorate (on (OneEvent GroupMessage) PNotInt) handler start
     = (logged (mkLog AppLogger Error PriorityNotInt) start, Ok handler).
Proof. repeat split; reflexivity. Qed.

(** The world in which [handler] listens to group messages. *)
Lemma registered_run :
  decorate (on (OneEvent GroupMessage) default_priority) handler start
  = (mkWorld MessageChain.fresh
       [mkLog AppLogger Info (Registered true "GroupMessageEvent" 5 handler)]
       [(GroupMessage,
         [Registry.mkEntry (mkListener GroupMessage handler) 5 None None None None])]
       [CallJoin (mkListener GroupMessage handler) 5] [],
     Ok handler).
Proof. reflexivity. Qed.

End Runs.

(** ** The theorems at concrete inputs *)
Section Witnesses.

Import BotApplication Sample.

Lemma attach_to_unregistered_witness :
  Registry.is_listener stranger (listener_manager listening) = false
  /\ snd (decorate (attach (ARole ["admin"] None)) stranger listening) = Ok stranger
  /\ listener_manager (fst (decorate (attach (ARole ["admin"] None)) stranger listening))
     = listener_manager listening.
Proof.
  split; [reflexivity|].
  pose proof (@attach_to_unregistered Plain nat nat (ARole ["admin"] None)
                stranger listening eq_refl) as Hrun.
  split; [exact (proj1 Hrun) | exact (proj1 (proj2 Hrun))].
Defined.

Lemma send_msg_reraises_witness :
  outbox (fst (send_msg down 7 (MsgChain (MessageChain.ChainInstance 0)) start))
    = outbox start ++ [(7, MessageChain.ChainInstance 0, MessageChain.fresh)]
  /\ send_message down 7 (MessageChain.ChainInstance 0) MessageChain.fresh
     = Raise (AdapterError "connection refused")
  /\ snd (send_msg down 7 (MsgChain (MessageChain.ChainInstance 0)) start)
     = Raise (AdapterError "connection refused")
  /\ log (fst (send_msg down 7 (MsgChain (MessageChain.ChainInstance 0)) start))
     = log start ++ [mkLog AdapterLogger Error
                       (SendFailed (AdapterError "connection refused"))].
Proof.
  split; [reflexivity|]. split; [reflexivity|].
  exact (@send_msg_reraises Plain _ nat (Registry.t nat) nat down 7
           (MsgChain (MessageChain.ChainInstance 0)) start 7
           (MessageChain.ChainInstance 0) MessageChain.fresh
           (AdapterError "connection refused") eq_refl eq_refl).
Defined.

Lemma on_joins_once_per_event_witness :
  2 <= length [GroupMessage; FriendMessage]
  /\ (0 < 5)%Z
  /\ fn_coroutine handler = true
  /\ calls (fst (decorate (on (EventList [GroupMessage; FriendMessage]) (PInt 5))
                   handler start))
     = calls start ++ [CallJoin (mkListener GroupMessage handler) 5;
                       CallJoin (mkListener FriendMessage handler) 5].
Proof.
  split; [simpl; lia|]. split; [lia|]. split; [reflexivity|].
  exact (proj1 (proj2
    (@on_joins_once_per_event Plain nat (Registry.t nat) _ nat false
       [GroupMessage; FriendMessage] 5 handler start
       (le_n 2) eq_refl eq_refl))).
Defined.

Lemma send_msg_sequence_arity_witness :
  length [mkPlain "A List or Tuple Too"; mkPlain "[face:12]"] <> 1
  /\ send_msg up 7 (MsgList [mkPlain "A List or Tuple Too"; mkPlain "[face:12]"]) start
     = (logged (mkLog AdapterLogger Error (SendFailed TypeError)) start,
        Raise TypeError).
Proof.
  assert (Hlen : length [mkPlain "A List or Tuple Too"; mkPlain "[face:12]"] <> 1)
    by (simpl; lia).
  split; [exact Hlen|].
  exact (proj1 (@send_msg_sequence_arity Plain _ nat (Registry.t nat) nat up false
                  [mkPlain "A List or Tuple Too"; mkPlain "[face:12]"] 7 start Hlen)).
Defined.

End Witnesses.

(** * Further properties of the code *)

(** ** Message chains *)
Section ChainConstructions.

Context {E : Type} `{Element.API E}.

Implicit Types (c : MessageChain.Cls (E:=E)) (l : list E).

Lemma concat_in_order_app (a b : list string) :
  concat_in_order (a ++ b) = (concat_in_order a ++ concat_in_order b)%string.
Proof.
  induction a as [|s rest IH]; simpl; [reflexivity|].
  rewrite IH. clear IH.
  induction s as [|ch s' IHs]; simpl; [reflexivity|]. now f_equal.
Qed.




(** X2: A chain created from two sequences put end to end renders as the
    rendering of the first followed by the rendering of the second, in
    the wire form and in the display form. *)
Theorem create_of_append l1 l2 c :
  MessageChain.to_code MessageChain.ChainClass
    (fst (MessageChain.create (MessageChain.ArgSeq (l1 ++ l2)) c))
  = Ok (concat_in_order (map Element.to_code l1)
        ++ concat_in_order (map Element.to_code l2))%string
  /\ MessageChain.as_display MessageChain.ChainClass
       (fst (MessageChain.create (MessageChain.ArgSeq (l1 ++ l2)) c))
     = Ok (concat_in_order (map Element.as_display l1)
           ++ concat_in_order (map Element.as_display l2))%string.
Proof.
  rewrite create_seq. unfold MessageChain.to_code, MessageChain.as_display; simpl.
  rewrite join_empty_in_order. unfold MessageChain.pre_rendered.
  rewrite !map_app, !concat_in_order_app. split; reflexivity.
Qed.

(** X3: [create] on an object that cannot be iterated raises [TypeError]
    after it has stored the object as [elements]: the wire form of the
    class is the one it had, and [as_display()] now raises too. *)
Theorem create_not_iterable (e : E) c :
  Element.iter_items e = None ->
  let c' := fst (MessageChain.create (MessageChain.ArgElement e) c) in
  snd (MessageChain.create (MessageChain.ArgElement e) c) = Raise TypeError
  /\ MessageChain.elements c' = Some (MessageChain.ArgElement e)
  /\ MessageChain.to_code MessageChain.ChainClass c'
     = MessageChain.to_code MessageChain.ChainClass c
  /\ MessageChain.as_display MessageChain.ChainClass c' = Raise TypeError.
Proof.
  intros Hit. cbv zeta.
  unfold MessageChain.create, MessageChain.as_display, MessageChain.to_code; simpl.
  rewrite Hit; simpl. rewrite Hit. repeat split; reflexivity.
Qed.

(** X4: What the class holds after [create] on a sequence does not depend
    on the chains built before; and a second call of the class on
    strings erases what the first call stored. *)
Theorem last_construction_wins l (s1 s2 : list string) c c' :
  fst (MessageChain.create (MessageChain.ArgSeq l) c)
  = fst (MessageChain.create (MessageChain.ArgSeq l) c')
  /\ fst (MessageChain.__new__ s2 (fst (MessageChain.__new__ s1 c)))
     = fst (MessageChain.__new__ s2 c).
Proof. rewrite !create_seq. split; reflexivity. Qed.

End ChainConstructions.

(** ** Every shape of the [event] argument of [on] *)
Section OnShapes.

Import BotApplication.

Context {E : Type} `{Element.API E}.
Context {F LM : Type} `{ListenerManager.API F LM}.
Variable Contact : Type.

Local Abbreviation World := (BotApplication.World (E:=E) (F:=F) (LM:=LM) Contact).

Implicit Types (w : World) (f : PyFunc) (p : Z) (ev : EventArg) (pr : PyPriority).

(** The line that a registration writes. *)
Lemma on_registers ev p f w :
  (0 < p)%Z ->
  fn_coroutine f = true ->
  exists (multi : bool) (nm : string),
    decorate (on ev (PInt p)) f w
    = (joined f p (events_of ev)
         (logged (mkLog AppLogger Info (Registered multi nm p f)) w), Ok f).
Proof.
  intros Hp Hf. unfold decorate, on, bind.
  destruct (Z.gtb_spec p 0) as [_|Hle]; [|lia].
  simpl. unfold on_wrapper. rewrite Hf.
  assert (Hone : forall e (v : World),
             join f p e v = (joined f p [e] v, Ok tt)) by reflexivity.
  destruct ev as [e|[|e [|e' rest]]|l];
    unfold unwrap_single, events_of, register, write_log, bind, ret;
    cbv beta iota zeta;
    rewrite ?join_each_joined, ?Hone; eexists; eexists; reflexivity.
Qed.

(** X5: Whatever the shape of [event] (one class, a list or a tuple, of any
    length), decorating an async handler at a positive priority calls
    [join] once for each event type, in order, with that priority and
    that handler, and returns the handler. *)
Theorem on_joins_each_event ev p f w :
  (0 < p)%Z ->
  fn_coroutine f = true ->
  let w' := fst (decorate (on ev (PInt p)) f w) in
  snd (decorate (on ev (PInt p)) f w) = Ok f
  /\ calls w' = calls w ++ map (fun e => CallJoin (mkListener e f) p) (events_of ev)
  /\ listener_manager w'
     = fold_left (fun m e => ListenerManager.join (mkListener e f) p m)
         (events_of ev) (listener_manager w).
Proof.
  intros Hp Hf. cbv zeta.
  destruct (@on_registers ev p f w Hp Hf) as (multi & nm & Hrun).
  rewrite Hrun. repeat split; reflexivity.
Qed.

(** X6: A list of one event type is the event type itself: the two
    decorations do the same, whatever the priority and the function. *)
Theorem on_singleton_list (e : EventType) pr f w :
  decorate (on (EventList [e]) pr) f w = decorate (on (OneEvent e) pr) f w.
Proof.
  unfold decorate, on, bind.
  destruct pr as [p|]; [|reflexivity].
  destruct (p >? 0)%Z; reflexivity.
Qed.

(** X7: Every decoration with [on] writes exactly one line to the
    application's logger, and touches neither the class attributes of
    [MessageChain] nor the adapter. *)
Theorem on_logs_one_line ev pr f w :
  let w' := fst (decorate (on ev pr) f w) in
  (exists lv t, log w' = log w ++ [mkLog AppLogger lv t])
  /\ chain_cls w' = chain_cls w
  /\ outbox w' = outbox w.
Proof.
  cbv zeta. destruct pr as [p|].
  - destruct (Z.gtb_spec p 0) as [Hgt|Hle].
    + destruct (fn_coroutine f) eqn:Hf.
      * assert (Hp : (0 < p)%Z) by lia.
        destruct (@on_registers ev p f w Hp Hf) as (multi & nm & Hrun).
        rewrite Hrun; simpl. repeat split; try reflexivity.
        eexists; eexists; reflexivity.
      * assert (Hp : (0 < p)%Z) by lia.
        rewrite on_not_coroutine by assumption; simpl.
        repeat split; try reflexivity. eexists; eexists; reflexivity.
    + rewrite on_not_positive by assumption; simpl.
      repeat split; try reflexivity. eexists; eexists; reflexivity.
  - rewrite on_not_int; simpl.
    repeat split; try reflexivity. eexists; eexists; reflexivity.
Qed.

(** X8: What a decoration with [on] gives back: the function itself, except
    for an [int] priority that is not positive, where it raises. *)
Theorem on_returns ev pr f w :
  snd (decorate (on ev pr) f w)
  = match pr with
    | PNotInt => Ok f
    | PInt p => if (p >? 0)%Z then Ok f else Raise TypeError
    end.
Proof.
  destruct pr as [p|]; [|reflexivity].
  destruct (Z.gtb_spec p 0) as [Hgt|Hle].
  - destruct (fn_coroutine f) eqn:Hf.
    + assert (Hp : (0 < p)%Z) by lia.
      destruct (@on_registers ev p f w Hp Hf) as (multi & nm & Hrun).
      now rewrite Hrun.
    + assert (Hp : (0 < p)%Z) by lia.
      now rewrite on_not_coroutine by assumption.
  - now rewrite on_not_positive by assumption.
Qed.

(** X9: [on] never joins a listener for a function that is not a coroutine
    function, nor at a priority that is not a positive [int]: every call
    of the manager made by a decoration is a [join] of the decorated
    function, for one of the given event types, at the given priority. *)
Theorem on_joins_only_valid ev pr f w (c : ManagerCall (F:=F)) :
  In c (calls (fst (decorate (on ev pr) f w))) ->
  In c (calls w)
  \/ exists e p,
       c = CallJoin (mkListener e f) p
       /\ pr = PInt p /\ (0 < p)%Z /\ fn_coroutine f = true
       /\ In e (events_of ev).
Proof.
  intros Hin. destruct pr as [p|].
  - destruct (Z.gtb_spec p 0) as [Hgt|Hle].
    + assert (Hp : (0 < p)%Z) by lia.
      destruct (fn_coroutine f) eqn:Hf.
      * destruct (@on_registers ev p f w Hp Hf) as (multi & nm & Hrun).
        rewrite Hrun in Hin; simpl in Hin.
        apply in_app_or in Hin. destruct Hin as [Hold|Hnew]; [left; exact Hold|].
        right. apply in_map_iff in Hnew. destruct Hnew as (e & Hc & He).
        exists e, p. auto.
      * rewrite on_not_coroutine in Hin by assumption. left; exact Hin.
    + rewrite on_not_positive in Hin by assumption. left; exact Hin.
  - rewrite on_not_int in Hin. left; exact Hin.
Qed.

End OnShapes.

(** ** The attachment decorators, over any listener manager *)
Section AttachDispatch.

Import BotApplication.

Context {E : Type} `{Element.API E}.
Context {F LM : Type} `{ListenerManager.API F LM}.
Variable Contact : Type.

Local Abbreviation World := (BotApplication.World (E:=E) (F:=F) (LM:=LM) Contact).

Implicit Types (w : World) (f : PyFunc) (value : Value F).

Lemma set_wrapper_run (key desc : string) f value
      (setter : PyFunc -> Value F -> LM -> LM * bool) w :
  bind (on_manager (CallSet key f value) (setter f value))
       (fun flag =>
          bind (if negb flag
                then write_log AppLogger Warning (NotListener desc f)
                else ret tt)
               (fun _ => ret f)) w
  = (after_setter key desc f value (setter f value (listener_manager w)) w,
     Ok f).
Proof.
  unfold bind, on_manager, after_setter.
  destruct (setter f value (listener_manager w)) as [m [|]]; reflexivity.
Qed.

Lemma set_wrapper_matcher (desc : string) f value w :
  set_wrapper value "matcher" desc f w
  = (after_setter "matcher" desc f value
       (ListenerManager.set_matcher f value (listener_manager w)) w, Ok f).
Proof.
  unfold set_wrapper; cbn [lookup String.eqb Ascii.eqb Bool.eqb].
  apply set_wrapper_run.
Qed.

Lemma set_wrapper_param_convert (desc : string) f value w :
  set_wrapper value "param_convert" desc f w
  = (after_setter "param_convert" desc f value
       (ListenerManager.set_param_convert f value (listener_manager w)) w, Ok f).
Proof.
  unfold set_wrapper; cbn [lookup String.eqb Ascii.eqb Bool.eqb].
  apply set_wrapper_run.
Qed.

Lemma set_wrapper_role (desc : string) f value w :
  set_wrapper value "role" desc f w
  = (after_setter "role" desc f value
       (ListenerManager.set_role f value (listener_manager w)) w, Ok f).
Proof.
  unfold set_wrapper; cbn [lookup String.eqb Ascii.eqb Bool.eqb].
  apply set_wrapper_run.
Qed.

Lemma set_wrapper_nlp (desc : string) f value w :
  set_wrapper value "nlp" desc f w
  = (after_setter "nlp" desc f value
       (ListenerManager.set_nlp f value (listener_manager w)) w, Ok f).
Proof.
  unfold set_wrapper; cbn [lookup String.eqb Ascii.eqb Bool.eqb].
  apply set_wrapper_run.
Qed.

(** X10: Each key of the wrapper reaches its own setter, once: the wrapper
    records that call, warns exactly when the setter reports failure,
    and returns the function. *)
Theorem set_wrapper_dispatch (desc : string) f value w :
  set_wrapper value "matcher" desc f w
  = (after_setter "matcher" desc f value
       (ListenerManager.set_matcher f value (listener_manager w)) w, Ok f)
  /\ set_wrapper value "param_convert" desc f w
     = (after_setter "param_convert" desc f value
          (ListenerManager.set_param_convert f value (listener_manager w)) w, Ok f)
  /\ set_wrapper value "role" desc f w
     = (after_setter "role" desc f value
          (ListenerManager.set_role f value (listener_manager w)) w, Ok f)
  /\ set_wrapper value "nlp" desc f w
     = (after_setter "nlp" desc f value
          (ListenerManager.set_nlp f value (listener_manager w)) w, Ok f).
Proof.
  split; [apply set_wrapper_matcher|].
  split; [apply set_wrapper_param_convert|].
  split; [apply set_wrapper_role | apply set_wrapper_nlp].
Qed.

(** X11: A key outside the four of the mapping: the wrapper raises
    [KeyError]; no setter is called and nothing is logged. *)
Theorem set_wrapper_unknown_key (type desc : string) f value w :
  type <> "matcher" -> type <> "param_convert" ->
  type <> "role" -> type <> "nlp" ->
  set_wrapper value type desc f w = (w, Raise KeyError).
Proof.
  intros H1 H2 H3 H4. unfold set_wrapper.
  assert (Hnone : forall (A : Type) (a b c d : A),
            lookup type [("matcher", a); ("param_convert", b);
                         ("role", c); ("nlp", d)] = None).
  { intros A a b c d. unfold lookup.
    apply not_eq_sym in H1, H2, H3, H4.
    apply String.eqb_neq in H1, H2, H3, H4.
    now rewrite H1, H2, H3, H4. }
  rewrite Hnone. reflexivity.
Qed.

(** X12: The six attachment methods never raise: applied to any function,
    with any listener manager, each calls the manager once, returns the
    function, and leaves the class attributes of [MessageChain] and the
    adapter alone. *)
Theorem attach_returns_function (a : Attach (F:=F)) f w :
  let run := decorate (attach a) f w in
  snd run = Ok f
  /\ (exists key value, calls (fst run) = calls w ++ [CallSet key f value])
  /\ chain_cls (fst run) = chain_cls w
  /\ outbox (fst run) = outbox w.
Proof.
  cbv zeta.
  assert (Hrun : exists key value desc outcome,
            decorate (attach a) f w
            = (after_setter key desc f value outcome w, Ok f)).
  { destruct a as [cmd maw ign|kw maw ign|m|t|r todo|c ks ps].
    - change (decorate (attach (ACommand cmd maw ign)) f w)
        with (set_wrapper (VMatcher (CommandMatcher cmd maw ign))
                "matcher" "消息匹配器" f w).
      rewrite set_wrapper_matcher. do 4 eexists; reflexivity.
    - change (decorate (attach (AKeyword kw maw ign)) f w)
        with (set_wrapper (VMatcher (KeywordMatcher kw maw ign))
                "matcher" "消息匹配器" f w).
      rewrite set_wrapper_matcher. do 4 eexists; reflexivity.
    - change (decorate (attach (AMatcher m)) f w)
        with (set_wrapper (VMatcher m) "matcher" "消息匹配器" f w).
      rewrite set_wrapper_matcher. do 4 eexists; reflexivity.
    - change (decorate (attach (AParamConvert t)) f w)
        with (set_wrapper (VParamConvert t) "param_convert" "参数转换类型" f w).
      rewrite set_wrapper_param_convert. do 4 eexists; reflexivity.
    - change (decorate (attach (ARole r todo)) f w)
        with (set_wrapper (VRole r todo) "role" "权限组" f w).
      rewrite set_wrapper_role. do 4 eexists; reflexivity.
    - change (decorate (attach (ANlp c ks ps)) f w)
        with (set_wrapper (VNlp c ks ps) "nlp" "自然语言处理" f w).
      rewrite set_wrapper_nlp. do 4 eexists; reflexivity. }
  destruct Hrun as (key & value & desc & outcome & Hrun). rewrite Hrun.
  unfold after_setter; cbn [fst snd chain_cls outbox calls].
  split; [reflexivity|]. split; [exists key, value; reflexivity|].
  split; reflexivity.
Qed.

End AttachDispatch.

(** ** Every path of [send_msg] *)
Section SendPaths.

Import BotApplication.

Context {E : Type} `{Element.API E}.
Context {F LM : Type} `{ListenerManager.API F LM}.
Variable Contact : Type.
Variable adapter : Adapter (E:=E) Contact.

Local Abbreviation World := (BotApplication.World (E:=E) (F:=F) (LM:=LM) Contact).

Implicit Types (w : World) (target : Contact) (message : Message (E:=E)).

Lemma call_create_keeps (args : list MessageChain.PyArg) w :
  same_but_chain (fst (call_create args w)) w.
Proof.
  unfold same_but_chain.
  destruct args as [|a [|b rest]]; simpl; try (repeat split; reflexivity).
  unfold on_chain_cls.
  destruct (MessageChain.create a (chain_cls w)); simpl. repeat split; reflexivity.
Qed.

(** The three ways in which the statements under [try] end: the
    message is refused with a warning; an exception is raised before
    the transport is reached; the transport is called, last. *)
Lemma send_msg_body_ends target message w :
  send_msg_body adapter target message w
    = (logged (mkLog AdapterLogger Warning BadMessageType) w, Ok tt)
  \/ (exists w1 e,
        same_but_chain w1 w
        /\ send_msg_body adapter target message w = (w1, Raise e))
  \/ (exists w1 chain,
        same_but_chain w1 w
        /\ send_msg_body adapter target message w = send adapter target chain w1).
Proof.
  assert (Hcreate : forall args,
    (exists w1 e,
       same_but_chain w1 w
       /\ bind (call_create args) (fun chain => send adapter target chain) w
          = (w1, Raise e))
    \/ (exists w1 chain,
          same_but_chain w1 w
          /\ bind (call_create args) (fun chain => send adapter target chain) w
             = send adapter target chain w1)).
  { intros args. pose proof (call_create_keeps args w) as Hk.
    unfold bind. destruct (call_create args w) as [w1 [chain|e]]; simpl in Hk.
    - right. exists w1, chain. split; [exact Hk | reflexivity].
    - left. exists w1, e. split; [exact Hk | reflexivity]. }
  assert (Hsame : same_but_chain w w) by (repeat split; reflexivity).
  destruct message as [[|oid]|s|e|l|l|]; unfold send_msg_body; simpl.
  - left; reflexivity.
  - right; right. exists w, (MessageChain.ChainInstance oid). auto.
  - unfold make_plain. destruct (plain_class adapter) as [mk|].
    + right. apply (Hcreate [MessageChain.ArgElement (mk s)]).
    + right; left. exists w, IndexError. auto.
  - destruct (Element.direct_element e); simpl.
    + right. apply (Hcreate [MessageChain.ArgElement e]).
    + left; reflexivity.
  - right. apply Hcreate.
  - right. apply Hcreate.
  - left; reflexivity.
Qed.

(** X13: Every exception that leaves [send_msg] was logged, once, as an
    error of the adapter's logger, and nothing else was logged: this
    holds for the transport's exceptions and for those raised while the
    chain was being built. *)
Theorem send_msg_logs_what_it_raises target message w e :
  snd (send_msg adapter target message w) = Raise e ->
  log (fst (send_msg adapter target message w))
  = log w ++ [mkLog AdapterLogger Error (SendFailed e)].
Proof.
  unfold send_msg, try_except. intros Hraise.
  destruct (send_msg_body_ends target message w)
    as [Hwarn | [(w1 & e1 & Hk & Hbody) | (w1 & chain & Hk & Hbody)]].
  - rewrite Hwarn in Hraise. discriminate.
  - rewrite Hbody in *. simpl in *. inversion Hraise; subst.
    destruct Hk as (Hlog & _). now rewrite Hlog.
  - rewrite Hbody in *. unfold send in *.
    destruct (send_message adapter target chain (chain_cls w1)) as [[]|e1];
      simpl in *; [discriminate|].
    inversion Hraise; subst. destruct Hk as (Hlog & _). now rewrite Hlog.
Qed.

(** X14: When [send_msg] returns, either the adapter was given one chain,
    for the target, and nothing was logged, or the message was refused:
    the adapter got nothing and one warning was logged. *)
Theorem send_msg_returns target message w :
  snd (send_msg adapter target message w) = Ok tt ->
  let w' := fst (send_msg adapter target message w) in
  (log w' = log w
   /\ exists chain cls, outbox w' = outbox w ++ [(target, chain, cls)])
  \/ (outbox w' = outbox w
      /\ log w' = log w ++ [mkLog AdapterLogger Warning BadMessageType]).
Proof.
  unfold send_msg, try_except. intros Hok. cbv zeta.
  destruct (send_msg_body_ends target message w)
    as [Hwarn | [(w1 & e1 & Hk & Hbody) | (w1 & chain & Hk & Hbody)]].
  - rewrite Hwarn. right. split; reflexivity.
  - rewrite Hbody in *. simpl in Hok. discriminate.
  - rewrite Hbody in *. unfold send in *.
    destruct Hk as (Hlog & Hbox & _).
    destruct (send_message adapter target chain (chain_cls w1)) as [[]|e1];
      simpl in *; [|discriminate].
    left. split; [exact Hlog|].
    exists chain, (chain_cls w1). now rewrite Hbox.
Qed.

(** X15: [send_msg] calls the transport at most once, with the target it was
    given, and never touches the listener manager. *)
Theorem send_msg_sends_at_most_once target message w :
  let w' := fst (send_msg adapter target message w) in
  listener_manager w' = listener_manager w
  /\ calls w' = calls w
  /\ (outbox w' = outbox w
      \/ exists chain cls, outbox w' = outbox w ++ [(target, chain, cls)]).
Proof.
  unfold send_msg, try_except. cbv zeta.
  destruct (send_msg_body_ends target message w)
    as [Hwarn | [(w1 & e1 & Hk & Hbody) | (w1 & chain & Hk & Hbody)]].
  - rewrite Hwarn. simpl. repeat split; try reflexivity. left; reflexivity.
  - rewrite Hbody. simpl. destruct Hk as (_ & Hbox & Hlm & Hcalls).
    split; [exact Hlm|]. split; [exact Hcalls|]. left; exact Hbox.
  - rewrite Hbody. unfold send.
    destruct Hk as (_ & Hbox & Hlm & Hcalls).
    destruct (send_message adapter target chain (chain_cls w1)) as [[]|e1]; simpl;
      (split; [exact Hlm|]); (split; [exact Hcalls|]);
      right; exists chain, (chain_cls w1); now rewrite Hbox.
Qed.

Lemma send_msg_body_refuses target message w :
  type_of message = TOther \/ type_of message = TElement false ->
  send_msg_body adapter target message w
  = (logged (mkLog AdapterLogger Warning BadMessageType) w, Ok tt).
Proof.
  intros [Hty|Hty]; destruct message as [[|oid]|s|e|l|l|];
    simpl in Hty; try discriminate; try reflexivity.
  inversion Hty as [Hd]. unfold send_msg_body; simpl. rewrite Hd. reflexivity.
Qed.

Lemma send_not_refusal target (chain : MessageChain.Chain) w1 w :
  outbox w1 = outbox w ->
  send adapter target chain w1
  <> (logged (mkLog AdapterLogger Warning BadMessageType) w, Ok tt).
Proof.
  intros Hbox Hrun. unfold send in Hrun.
  apply (f_equal (fun r => outbox (fst r))) in Hrun. simpl in Hrun.
  rewrite Hbox in Hrun. symmetry in Hrun. exact (@no_growth _ _ _ Hrun).
Qed.

Lemma create_then_send_not_refusal target (args : list MessageChain.PyArg) w :
  bind (call_create args) (fun chain => send adapter target chain) w
  <> (logged (mkLog AdapterLogger Warning BadMessageType) w, Ok tt).
Proof.
  pose proof (call_create_keeps args w) as Hk. unfold bind.
  destruct (call_create args w) as [w1 [chain|e1]]; [|discriminate].
  destruct Hk as (_ & Hbox & _). now apply send_not_refusal.
Qed.

Lemma send_msg_body_accepts target message w :
  type_of message <> TOther ->
  type_of message <> TElement false ->
  send_msg_body adapter target message w
  <> (logged (mkLog AdapterLogger Warning BadMessageType) w, Ok tt).
Proof.
  intros Hother Hindirect.
  destruct message as [[|oid]|s|e|l|l|]; simpl in Hother, Hindirect;
    try (exfalso; now apply Hother); unfold send_msg_body; simpl.
  - now apply send_not_refusal.
  - unfold make_plain. destruct (plain_class adapter) as [mk|].
    + apply (create_then_send_not_refusal target [MessageChain.ArgElement (mk s)]).
    + discriminate.
  - destruct (Element.direct_element e); [|exfalso; now apply Hindirect].
    apply (create_then_send_not_refusal target [MessageChain.ArgElement e]).
  - apply create_then_send_not_refusal.
  - apply create_then_send_not_refusal.
Qed.

Lemma type_of_refused_dec message :
  {type_of message = TOther \/ type_of message = TElement false}
  + {type_of message <> TOther /\ type_of message <> TElement false}.
Proof.
  destruct (type_of message) as [| |[|]| | |];
    try (left; auto; fail); right; split; discriminate.
Qed.

(** X16: The messages that are refused with a warning are exactly those
    whose type is none of the accepted ones: neither a chain object, a
    string, a list or a tuple, nor an element of a class that is
    [Element] or one of its direct subclasses. *)
Theorem send_msg_refuses target message w :
  send_msg adapter target message w
    = (logged (mkLog AdapterLogger Warning BadMessageType) w, Ok tt)
  <-> (type_of message = TOther \/ type_of message = TElement false).
Proof.
  split.
  - intros Hrun.
    destruct (type_of_refused_dec message) as [Hty|[Hother Hindirect]];
      [exact Hty|exfalso].
    pose proof (@send_msg_body_accepts target message w Hother Hindirect) as Hnot.
    unfold send_msg, try_except in Hrun.
    destruct (send_msg_body adapter target message w) as [w1 [[]|e1]].
    + now apply Hnot.
    + simpl in Hrun. discriminate.
  - intros Hty. unfold send_msg, try_except.
    now rewrite (@send_msg_body_refuses target message w Hty).
Qed.

(** X17: The chain that [MessageChain.create] returns is the class object,
    whose type is not [MessageChain]: handed to [send_msg], it is
    refused with a warning and the adapter gets nothing. *)
Theorem send_msg_of_created_chain (l : list E) target w :
  let run := bind (on_chain_cls (MessageChain.create (MessageChain.ArgSeq l)))
                  (fun chain => send_msg adapter target (MsgChain chain)) w in
  snd run = Ok tt
  /\ outbox (fst run) = outbox w
  /\ log (fst run) = log w ++ [mkLog AdapterLogger Warning BadMessageType]
  /\ MessageChain.to_code MessageChain.ChainClass (chain_cls (fst run))
     = Ok (concat_in_order (map Element.to_code l)).
Proof.
  cbv zeta. unfold bind, on_chain_cls. rewrite create_seq.
  unfold MessageChain.to_code. simpl. repeat split; reflexivity.
Qed.

(** X18: A string cannot be sent when the search for the adapter's [Plain]
    class finds nothing: [IndexError] is logged and raised, and the
    class attributes of [MessageChain] are as before. *)
Theorem send_msg_str_without_plain (s : string) target w :
  plain_class adapter = None ->
  send_msg adapter target (MsgStr s) w
  = (logged (mkLog AdapterLogger Error (SendFailed IndexError)) w, Raise IndexError).
Proof.
  intros Hnone.
  unfold send_msg, try_except, send_msg_body, make_plain; simpl.
  rewrite Hnone. reflexivity.
Qed.

(** X19: A list or tuple of one element that cannot be iterated is not sent
    either: [create] receives the bare element, stores it as [elements]
    and raises [TypeError], which [send_msg] logs and raises. *)
Theorem send_msg_singleton_not_iterable (as_tuple : bool) (e : E) target w :
  Element.iter_items e = None ->
  let message := if as_tuple then MsgTuple [e] else MsgList [e] in
  let w' := fst (send_msg adapter target message w) in
  snd (send_msg adapter target message w) = Raise TypeError
  /\ outbox w' = outbox w
  /\ log w' = log w ++ [mkLog AdapterLogger Error (SendFailed TypeError)]
  /\ MessageChain.elements (chain_cls w') = Some (MessageChain.ArgElement e)
  /\ MessageChain._result (chain_cls w') = MessageChain._result (chain_cls w).
Proof.
  intros Hit. cbv zeta.
  destruct as_tuple;
    unfold send_msg, try_except, send_msg_body, bind, call_create, on_chain_cls,
      MessageChain.create; simpl; rewrite Hit; simpl;
    repeat split; reflexivity.
Qed.

End SendPaths.

(** ** The shared configuration *)
Section ConfigFacts.

Import BotApplication.

Variable V : Type.

Implicit Types (k : string) (v : V) (a d config : Attrs V).

Lemma lookup_setattr k k' v a :
  lookup k (setattr k' v a) = if String.eqb k' k then Some v else lookup k a.
Proof.
  induction a as [|[k0 v0] rest IH]; simpl.
  - reflexivity.
  - destruct (String.eqb_spec k0 k') as [Heq|Hne]; simpl.
    + subst k0. destruct (String.eqb k' k); reflexivity.
    + destruct (String.eqb_spec k0 k) as [Hk|Hk].
      * subst k0. destruct (String.eqb_spec k' k) as [Hc|_]; [|reflexivity].
        subst k'. now contradiction Hne.
      * exact IH.
Qed.

Lemma lookup_key_present k d :
  existsb (String.eqb k) (map fst d) = true -> lookup k d <> None.
Proof.
  induction d as [|[k0 v0] rest IH]; simpl; [discriminate|].
  rewrite (String.eqb_sym k k0).
  destruct (String.eqb k0 k); simpl; [discriminate | exact IH].
Qed.

Lemma lookup_key_absent k d :
  existsb (String.eqb k) (map fst d) = false -> lookup k d = None.
Proof.
  induction d as [|[k0 v0] rest IH]; simpl; [reflexivity|].
  rewrite (String.eqb_sym k k0).
  destruct (String.eqb k0 k); simpl; [discriminate | exact IH].
Qed.

Lemma copy_attrs_lookup (keys : list string) d config :
  (forall k, existsb (String.eqb k) keys = true -> lookup k d <> None) ->
  exists config',
    copy_attrs keys d config = Some config'
    /\ forall k, lookup k config'
                 = if existsb (String.eqb k) keys then lookup k d
                   else lookup k config.
Proof.
  revert config; induction keys as [|k0 rest IH]; intros config Hkeys; simpl.
  - exists config. split; reflexivity.
  - destruct (lookup k0 d) as [v0|] eqn:Hk0.
    + destruct (IH (setattr k0 v0 config)) as (config' & Hrun & Hget).
      { intros k Hk. apply Hkeys. simpl. rewrite Hk. apply orb_true_r. }
      exists config'. split; [exact Hrun|].
      intros k. rewrite Hget, lookup_setattr.
      rewrite (String.eqb_sym k k0).
      destruct (existsb (String.eqb k) rest).
      * now rewrite orb_true_r.
      * rewrite orb_false_r.
        destruct (String.eqb_spec k0 k) as [Heq|_]; [|reflexivity].
        subst k0. now rewrite Hk0.
    + exfalso. apply (Hkeys k0); [|exact Hk0].
      simpl. now rewrite String.eqb_refl.
Qed.

(** X20: [set_config] never fails on a name, and afterwards [CONFIG] holds
    the application under [application], every other attribute of the
    application under its own name, and what it held before under every
    name that the application does not have. *)
Theorem set_config_attributes (self : V) d config :
  exists config',
    set_config d self config = Some config'
    /\ forall k,
         lookup k config'
         = if String.eqb "application" k then Some self
           else match lookup k d with
                | Some v => Some v
                | None => lookup k config
                end.
Proof.
  destruct (copy_attrs_lookup (map fst d) d config) as (copied & Hrun & Hget).
  { intros k. apply lookup_key_present. }
  unfold set_config. rewrite Hrun.
  exists (setattr "application" self copied). split; [reflexivity|].
  intros k. rewrite lookup_setattr, Hget.
  destruct (String.eqb "application" k); [reflexivity|].
  destruct (existsb (String.eqb k) (map fst d)) eqn:Hin.
  - destruct (lookup k d) as [v|] eqn:Hk; [reflexivity|].
    exfalso. now apply (lookup_key_present k d Hin).
  - now rewrite (lookup_key_absent k d Hin).
Qed.

End ConfigFacts.

(** ** The further properties at concrete inputs *)
Section MoreWitnesses.

Import BotApplication Sample.

Lemma create_not_iterable_witness :
  Element.iter_items (mkPlain "hi") = None
  /\ snd (MessageChain.create (MessageChain.ArgElement (mkPlain "hi"))
            MessageChain.fresh) = Raise TypeError.
Proof.
  split; [reflexivity|].
  exact (proj1 (@create_not_iterable Plain _ (mkPlain "hi") MessageChain.fresh
                  eq_refl)).
Defined.

Lemma on_joins_each_event_witness :
  (0 < 5)%Z
  /\ fn_coroutine handler = true
  /\ calls (fst (decorate (on (EventTuple [GroupMessage]) (PInt 5)) handler start))
     = calls start ++ [CallJoin (mkListener GroupMessage handler) 5].
Proof.
  split; [lia|]. split; [reflexivity|].
  exact (proj1 (proj2
    (@on_joins_each_event Plain nat (Registry.t nat) _ nat
       (EventTuple [GroupMessage]) 5 handler start eq_refl eq_refl))).
Defined.

Lemma on_joins_only_valid_witness :
  In (CallJoin (F:=nat) (mkListener GroupMessage handler) 5) (calls listening)
  /\ (In (CallJoin (F:=nat) (mkListener GroupMessage handler) 5) (calls start)
      \/ exists e p,
           CallJoin (F:=nat) (mkListener GroupMessage handler) 5
           = CallJoin (mkListener e handler) p
           /\ default_priority = PInt p /\ (0 < p)%Z /\ fn_coroutine handler = true
           /\ In e (events_of (OneEvent GroupMessage))).
Proof.
  assert (Hin : In (CallJoin (F:=nat) (mkListener GroupMessage handler) 5)
                   (calls listening)) by (left; reflexivity).
  split; [exact Hin|].
  exact (@on_joins_only_valid Plain nat (Registry.t nat) _ nat
           (OneEvent GroupMessage) default_priority handler start _ Hin).
Defined.

Lemma set_wrapper_unknown_key_witness :
  "keyword" <> "matcher" /\ "keyword" <> "param_convert"
  /\ "keyword" <> "role" /\ "keyword" <> "nlp"
  /\ set_wrapper (VParamConvert PList) "keyword" "" stranger listening
     = (listening, Raise KeyError).
Proof.
  assert (H1 : "keyword" <> "matcher") by discriminate.
  assert (H2 : "keyword" <> "param_convert") by discriminate.
  assert (H3 : "keyword" <> "role") by discriminate.
  assert (H4 : "keyword" <> "nlp") by discriminate.
  repeat (split; [assumption|]).
  exact (@set_wrapper_unknown_key Plain nat (Registry.t nat) _ nat
           "keyword" "" stranger (VParamConvert PList) listening H1 H2 H3 H4).
Defined.

Lemma send_msg_logs_what_it_raises_witness :
  snd (send_msg down 7 (MsgStr "hello") start) = Raise TypeError
  /\ log (fst (send_msg down 7 (MsgStr "hello") start))
     = log start ++ [mkLog AdapterLogger Error (SendFailed TypeError)].
Proof.
  split; [reflexivity|].
  exact (@send_msg_logs_what_it_raises Plain _ nat (Registry.t nat) nat down 7
           (MsgStr "hello") start TypeError eq_refl).
Defined.

Lemma send_msg_returns_witness :
  snd (send_msg up 7 (MsgChain (MessageChain.ChainInstance 0)) start) = Ok tt
  /\ ((log (fst (send_msg up 7 (MsgChain (MessageChain.ChainInstance 0)) start))
       = log start
       /\ exists chain cls,
            outbox (fst (send_msg up 7 (MsgChain (MessageChain.ChainInstance 0)) start))
            = outbox start ++ [(7, chain, cls)])
      \/ (outbox (fst (send_msg up 7 (MsgChain (MessageChain.ChainInstance 0)) start))
          = outbox start
          /\ log (fst (send_msg up 7 (MsgChain (MessageChain.ChainInstance 0)) start))
             = log start ++ [mkLog AdapterLogger Warning BadMessageType])).
Proof.
  split; [reflexivity|].
  exact (@send_msg_returns Plain _ nat (Registry.t nat) nat up 7
           (MsgChain (MessageChain.ChainInstance 0)) start eq_refl).
Defined.

Lemma send_msg_str_without_plain_witness :
  plain_class without_plain = None
  /\ send_msg without_plain 7 (MsgStr "hello") start
     = (logged (mkLog AdapterLogger Error (SendFailed IndexError)) start,
        Raise IndexError).
Proof.
  split; [reflexivity|].
  exact (@send_msg_str_without_plain Plain _ nat (Registry.t nat) nat without_plain
           "hello" 7 start eq_refl).
Defined.

Lemma send_msg_singleton_not_iterable_witness :
  Element.iter_items (mkPlain "hi") = None
  /\ snd (send_msg up 7 (MsgList [mkPlain "hi"]) start) = Raise TypeError
  /\ outbox (fst (send_msg up 7 (MsgList [mkPlain "hi"]) start)) = outbox start.
Proof.
  split; [reflexivity|].
  pose proof (@send_msg_singleton_not_iterable Plain _ nat (Registry.t nat) nat up
                false (mkPlain "hi") 7 start eq_refl) as Hrun.
  split; [exact (proj1 Hrun) | exact (proj1 (proj2 Hrun))].
Defined.

End MoreWitnesses.
